(** * docker-alertd: the alert backends of [cmd/alerters.go]

    A shallow embedding of the three [Alerter] implementations (Email,
    Slack, Pushover): their [Valid] and [Alert] methods, the parts of the
    Go standard library they call ([fmt.Sprintf] with [%s],
    [strings.Join], [strconv.Atoi], [url.QueryEscape],
    [reflect.DeepEqual] on the three structs) and the effects they have
    on the outside world (HTTP posts, SMTP deliveries, log lines).

    Go strings are byte strings: [string] here, one [ascii] per byte. *)

From Stdlib Require Import Bool Arith ZArith Lia List Ascii String.
Import ListNotations.

Local Open Scope list_scope.
Local Open Scope string_scope.

Set Implicit Arguments.

(** ** Strings *)

Module GoString.

(** A byte as a number, for comparisons such as ['a' <= c && c <= 'z']. *)
Definition code (c : ascii) : nat := nat_of_ascii c.

Definition between (lo hi c : ascii) : bool :=
  (code lo <=? code c)%nat && (code c <=? code hi)%nat.

(** The double quote byte, code 34. *)
Definition dquote : string := String "034"%char EmptyString.

(** [strings.Join(elems, sep)]. *)
Definition Join (elems : list string) (sep : string) : string :=
  String.concat sep elems.

(** [strings.Contains(s, substr)]: [substr] occurs in [s]. *)
Fixpoint Contains (s substr : string) : bool :=
  String.prefix substr s ||
  match s with
  | EmptyString => false
  | String _ s' => Contains s' substr
  end.

End GoString.

(** ** Errors *)

(** The error values these methods build or pass on: [errors.New] and
    [errors.Wrap] of github.com/pkg/errors, and the errors the transport
    layers (net/http, gomail) hand back, which the code treats as opaque. *)
Inductive error : Type :=
| errors_New (msg : string)
| errors_Wrap (cause : error) (msg : string)
| transport_error (text : string).

(** The [Error()] method; a wrapped error prints as [msg: cause]. *)
Fixpoint Error (e : error) : string :=
  match e with
  | errors_New msg => msg
  | errors_Wrap cause msg => msg ++ ": " ++ Error cause
  | transport_error text => text
  end.

(** ** strconv.Atoi *)

Module strconv.

Inductive ErrKind := ErrSyntax | ErrRange.

(** [*strconv.NumError]. *)
Record NumError := { Func : string; Num : string; Err : ErrKind }.

Definition is_digit (c : ascii) : bool := GoString.between "0" "9" c.

Definition digit_val (c : ascii) : Z := Z.of_nat (GoString.code c) - 48.

(** [lower(c)], that is [c | ('x' - 'X')]. *)
Definition lower (c : ascii) : Z := Z.lor (Z.of_nat (GoString.code c)) 32.

Definition syntaxError (s : string) : NumError :=
  {| Func := "Atoi"; Num := s; Err := ErrSyntax |}.

Definition rangeError (s : string) : NumError :=
  {| Func := "Atoi"; Num := s; Err := ErrRange |}.

(** [int] is 64 bits wide; [cutoff] is [1 << (bitSize-1)] of [ParseInt]. *)
Definition cutoff : Z := 2 ^ 63.

Definition maxUint64 : Z := 2 ^ 64 - 1.

(** The cutoff of [ParseUint] in base 10: [maxUint64/10 + 1]. *)
Definition uint_cutoff : Z := maxUint64 / 10 + 1.

(** The loop of [ParseUint(s, 10, 0)] over the bytes of [s], on [uint64]:
    a byte that is no digit of base 10 ends it with a syntax error, and
    the first overflow ends it with [maxVal] and a range error, before
    the bytes that follow are looked at. *)
Fixpoint ParseUint_loop (s : string) (n : Z) : Z * option ErrKind :=
  match s with
  | EmptyString => (n, None)
  | String c s' =>
      let d :=
        if is_digit c then Some (digit_val c)
        else if (97 <=? lower c) && (lower c <=? 122)
        then Some (lower c - 97 + 10)
        else None in
      match d with
      | None => (0, Some ErrSyntax)
      | Some d =>
          if 10 <=? d then (0, Some ErrSyntax)
          else if uint_cutoff <=? n then (maxUint64, Some ErrRange)
          else
            let n := (n * 10) mod 2 ^ 64 in
            let n1 := (n + d) mod 2 ^ 64 in
            if (n1 <? n) || (maxUint64 <? n1) then (maxUint64, Some ErrRange)
            else ParseUint_loop s' n1
      end
  end%Z.

Definition ParseUint (s : string) : Z * option ErrKind :=
  match s with
  | EmptyString => (0%Z, Some ErrSyntax)
  | _ => ParseUint_loop s 0
  end.

(** [ParseInt(s, 10, 0)]: the sign is picked off, a syntax error of
    [ParseUint] is passed on with 0, and anything else, a range error
    included, goes through the two range checks. *)
Definition ParseInt (s : string) : Z * option ErrKind :=
  match s with
  | EmptyString => (0, Some ErrSyntax)
  | String c0 rest =>
      let '(neg, s) :=
        if Ascii.eqb c0 "+" then (false, rest)
        else if Ascii.eqb c0 "-" then (true, rest)
        else (false, s) in
      let (un, err) := ParseUint s in
      match err with
      | Some ErrSyntax => (0, Some ErrSyntax)
      | _ =>
          if negb neg && (cutoff <=? un) then (cutoff - 1, Some ErrRange)
          else if neg && (cutoff <? un) then (- cutoff, Some ErrRange)
          else ((if neg then - un else un), None)
      end
  end%Z.

(** The loop of the fast path of [Atoi]: [ch -= '0'] on a byte, a syntax
    error when [ch > 9], else [n = n*10 + int(ch)]. *)
Fixpoint Atoi_fast_loop (s : string) (n : Z) : option Z :=
  match s with
  | EmptyString => Some n
  | String ch s' =>
      let ch := ((Z.of_nat (GoString.code ch) - 48) mod 256)%Z in
      if (9 <? ch)%Z then None else Atoi_fast_loop s' (n * 10 + ch)%Z
  end.

(** [Atoi(s)]: strings of 1 to 18 bytes take the fast path, the others
    go through [ParseInt].  A syntax error comes with 0, a range error
    with the nearest bound of [int]. *)
Definition Atoi (s : string) : Z * option NumError :=
  let sLen := String.length s in
  if (0 <? sLen)%nat && (sLen <? 19)%nat then
    match s with
    | EmptyString => (0%Z, Some (syntaxError s))
    | String c0 rest =>
        let signed := Ascii.eqb c0 "-" || Ascii.eqb c0 "+" in
        let body := if signed then rest else s in
        if signed && (String.length body <? 1)%nat then
          (0%Z, Some (syntaxError s))
        else
          match Atoi_fast_loop body 0 with
          | None => (0%Z, Some (syntaxError s))
          | Some n => ((if Ascii.eqb c0 "-" then - n else n)%Z, None)
          end
    end
  else
    let (i64, err) := ParseInt s in
    match err with
    | Some ErrSyntax => (i64, Some (syntaxError s))
    | Some ErrRange => (i64, Some (rangeError s))
    | None => (i64, None)
    end.

(** What a reader calls a number: an optional sign and at least one
    byte after it, all of them decimal digits. *)
Definition all_digits (s : string) : bool :=
  forallb is_digit (list_ascii_of_string s).


(** The number a string of decimal digits writes, read from [n] on. *)
Definition value_from (s : string) (n : Z) : Z :=
  fold_left (fun n c => (n * 10 + digit_val c)%Z) (list_ascii_of_string s) n.

Definition decimal_value (s : string) : Z := value_from s 0.

End strconv.

(** ** url.QueryEscape *)

Module url.

Definition upperhex : string := "0123456789ABCDEF".

Definition hex (n : nat) : ascii :=
  match String.get n upperhex with
  | Some c => c
  | None => "0"%char
  end.

(** [shouldEscape(c, encodeQueryComponent)]: letters, digits and the
    marks [- _ . ~] pass; the reserved bytes and everything else are
    escaped. *)
Definition shouldEscape (c : ascii) : bool :=
  if GoString.between "a" "z" c || GoString.between "A" "Z" c
     || GoString.between "0" "9" c
  then false
  else if Ascii.eqb c "-" || Ascii.eqb c "_" || Ascii.eqb c "."
          || Ascii.eqb c "~"
  then false
  else true.

(** [escape(s, encodeQueryComponent)], byte by byte: a space becomes
    [+], an escaped byte [%XX] with [XX = upperhex[c>>4], upperhex[c&15]]. *)
Fixpoint escape (s : string) : string :=
  match s with
  | EmptyString => EmptyString
  | String c s' =>
      if shouldEscape c then
        if Ascii.eqb c " " then String "+" (escape s')
        else
          String "%"
            (String (hex (GoString.code c / 16))
               (String (hex (GoString.code c mod 16)) (escape s')))
      else String c (escape s')
  end.

Definition QueryEscape (s : string) : string := escape s.

(** The bytes an escaped query component is made of: the unreserved
    ones, the plus sign that stands for a space, and the percent sign
    that opens an escape. *)
Definition query_byte (c : ascii) : bool :=
  negb (shouldEscape c) || Ascii.eqb c "+" || Ascii.eqb c "%".

(** [unhex(c)], with [ishex(c)] as its domain. *)
Definition unhex (c : ascii) : option nat :=
  if GoString.between "0" "9" c then Some (GoString.code c - 48)
  else if GoString.between "a" "f" c then Some (GoString.code c - 97 + 10)
  else if GoString.between "A" "F" c then Some (GoString.code c - 65 + 10)
  else None.

(** [unescape(s, encodeQueryComponent)], what the receiving side applies:
    [%XX] gives the byte [unhex(X)<<4 | unhex(X)], a plus sign a space;
    a percent sign not followed by two hex digits is an error. *)
Fixpoint unescape (s : string) : option string :=
  match s with
  | EmptyString => Some EmptyString
  | String c rest =>
      if Ascii.eqb c "%" then
        match rest with
        | String h (String l rest') =>
            match unhex h, unhex l, unescape rest' with
            | Some a, Some b, Some t =>
                Some (String (ascii_of_nat (a * 16 + b)) t)
            | _, _, _ => None
            end
        | _ => None
        end
      else
        match unescape rest with
        | Some t => Some (String (if Ascii.eqb c "+" then " "%char else c) t)
        | None => None
        end
  end.

Definition QueryUnescape (s : string) : option string := unescape s.

End url.

(** ** Data model *)

(** A Go slice is [nil] or holds elements; [reflect.DeepEqual] tells the
    two apart even when the slice is empty. *)
Definition slice (A : Type) : Type := option (list A).

Definition elems {A : Type} (s : slice A) : list A :=
  match s with
  | None => []
  | Some l => l
  end.

Definition len {A : Type} (s : slice A) : nat := List.length (elems s).

(** Modelled from the spec: the [Alert] struct is declared outside
    cmd/alerters.go; it carries the primary body text and the ordered
    subject addendums. *)
Record Alert : Type := {
  Message : string;
  SubjectAddendums : list string
}.

(** The two renderings of an alert are methods on [*Alert] that live
    outside cmd/alerters.go.  They are taken as they are called: each
    yields its text and leaves the object behind the pointer in some
    state. *)
Class AlertMethods : Type := {
  Dump : Alert -> string * Alert;
  DumpEmail : Alert -> string * Alert
}.

(** An implementation of the renderings that only reads the alert. *)
Definition read_only (AM : AlertMethods) : Prop :=
  (forall a, snd (Dump a) = a) /\ (forall a, snd (DumpEmail a) = a).

(** The package-level error values named by the [Valid] methods; they are
    declared outside cmd/alerters.go, so their texts are left open. *)
Class ErrorValues : Type := {
  ErrEmailNoSMTP : error;
  ErrEmailNoTo : error;
  ErrEmailNoFrom : error;
  ErrEmailNoUser : error;
  ErrEmailNoPass : error;
  ErrEmailNoPort : error;
  ErrEmailNoSubject : error;
  ErrSlackNoWebHookURL : error;
  ErrPushoverAPIToken : error;
  ErrPushoverUserKey : error;
  ErrPushoverAPIURL : error
}.

Record Email : Type := {
  SMTP : string;
  Username : string;
  Password : string;
  Port : string;
  From : string;
  To : slice string;
  Subject : string
}.

Record Slack : Type := {
  WebhookURL : string
}.

Record Pushover : Type := {
  APIToken : string;
  UserKey : string;
  APIURL : string
}.

(** The zero values [Email{}], [Slack{}] and [Pushover{}]. *)
Definition Email_zero : Email :=
  {| SMTP := ""; Username := ""; Password := ""; Port := ""; From := "";
     To := None; Subject := "" |}.

Definition Slack_zero : Slack := {| WebhookURL := "" |}.

Definition Pushover_zero : Pushover :=
  {| APIToken := ""; UserKey := ""; APIURL := "" |}.

(** [reflect.DeepEqual] at the three struct types: field by field; two
    slices are equal when both are nil, or neither is and their elements
    agree. *)
Module reflect.

Definition slice_eqb (s t : slice string) : bool :=
  match s, t with
  | None, None => true
  | Some l, Some l' =>
      if list_eq_dec string_dec l l' then true else false
  | _, _ => false
  end.

Definition DeepEqual_Email (x y : Email) : bool :=
  String.eqb (SMTP x) (SMTP y) && String.eqb (Username x) (Username y)
  && String.eqb (Password x) (Password y) && String.eqb (Port x) (Port y)
  && String.eqb (From x) (From y) && slice_eqb (To x) (To y)
  && String.eqb (Subject x) (Subject y).

Definition DeepEqual_Slack (x y : Slack) : bool :=
  String.eqb (WebhookURL x) (WebhookURL y).

Definition DeepEqual_Pushover (x y : Pushover) : bool :=
  String.eqb (APIToken x) (APIToken y) && String.eqb (UserKey x) (UserKey y)
  && String.eqb (APIURL x) (APIURL y).

End reflect.

(** ** The outside world *)

Module http.

Record Request : Type := {
  URL : string;
  ContentType : string;
  Body : string
}.

Record Response : Type := {
  StatusCode : Z
}.

End http.

Module gomail.

Record Dialer : Type := {
  Host : string;
  Port : Z;
  Username : string;
  Password : string;
  SSL : bool
}.

(** A message: its header fields and its body with its content type. *)
Record Message : Type := {
  header : list (string * list string);
  bodyContentType : string;
  body : string
}.

Definition NewMessage : Message :=
  {| header := []; bodyContentType := ""; body := "" |}.

Definition SetBody (m : Message) (contentType b : string) : Message :=
  {| header := header m; bodyContentType := contentType; body := b |}.

(** [m.header[field] = value]. *)
Definition SetHeader (m : Message) (field : string) (value : list string)
  : Message :=
  {| header :=
       filter (fun kv => negb (String.eqb (fst kv) field)) (header m)
       ++ [(field, value)];
     bodyContentType := bodyContentType m;
     body := body m |}.

Definition SetHeaders (m : Message) (h : list (string * list string))
  : Message :=
  fold_left (fun m kv => SetHeader m (fst kv) (snd kv)) h m.

Definition GetHeader (m : Message) (field : string) : list string :=
  match find (fun kv => String.eqb (fst kv) field) (header m) with
  | Some kv => snd kv
  | None => []
  end.

Definition NewPlainDialer (host : string) (port : Z) (username password : string)
  : Dialer :=
  {| Host := host; Port := port; Username := username;
     Password := password; SSL := (port =? 465)%Z |}.

End gomail.

(** What the network answers: [http.Post] yields a response or a
    transport error, [DialAndSend] succeeds or fails. *)
Class Transport : Type := {
  post_outcome : http.Request -> http.Response + error;
  send_outcome : gomail.Dialer -> gomail.Message -> option error
}.

(** The state the methods run in: the alert behind the pointer [a], and a
    record of every effect in the order it happened. *)
Record World : Type := {
  the_alert : Alert;
  posted : list http.Request;
  mailed : list (gomail.Dialer * gomail.Message);
  closed : list http.Response;
  logged : list string
}.

Definition M (A : Type) : Type := World -> A * World.

Definition ret {A : Type} (x : A) : M A := fun w => (x, w).

Definition bind {A B : Type} (m : M A) (k : A -> M B) : M B :=
  fun w => let (x, w') := m w in k x w'.

Declare Scope go_scope.
Delimit Scope go_scope with go.
Notation "x <- m ;; k" := (bind m (fun x => k))
  (at level 61, m at next level, right associativity) : go_scope.
Notation "m ;; k" := (bind m (fun _ => k))
  (at level 61, right associativity) : go_scope.
Local Open Scope go_scope.

Definition result {A : Type} (m : M A) (w : World) : A := fst (m w).
Definition after {A : Type} (m : M A) (w : World) : World := snd (m w).

Section Effects.

Context {AM : AlertMethods} {T : Transport}.

Definition set_alert (a : Alert) (w : World) : World :=
  {| the_alert := a; posted := posted w; mailed := mailed w;
     closed := closed w; logged := logged w |}.

(** [a.SubjectAddendums]. *)
Definition get_SubjectAddendums : M (list string) :=
  fun w => (SubjectAddendums (the_alert w), w).

(** [a.Dump()] and [a.DumpEmail()]. *)
Definition call_Dump : M string :=
  fun w => let (s, a') := Dump (the_alert w) in (s, set_alert a' w).

Definition call_DumpEmail : M string :=
  fun w => let (s, a') := DumpEmail (the_alert w) in (s, set_alert a' w).

(** [http.Post(url, contentType, body)]. *)
Definition http_Post (u contentType b : string) : M (http.Response + error) :=
  fun w =>
    let r := {| http.URL := u; http.ContentType := contentType;
                http.Body := b |} in
    (post_outcome r,
     {| the_alert := the_alert w; posted := posted w ++ [r];
        mailed := mailed w; closed := closed w; logged := logged w |}).

(** [resp.Body.Close()]. *)
Definition Body_Close (resp : http.Response) : M unit :=
  fun w =>
    (tt,
     {| the_alert := the_alert w; posted := posted w; mailed := mailed w;
        closed := closed w ++ [resp]; logged := logged w |}).

(** [d.DialAndSend(m)]. *)
Definition DialAndSend (d : gomail.Dialer) (m : gomail.Message)
  : M (option error) :=
  fun w =>
    (send_outcome d m,
     {| the_alert := the_alert w; posted := posted w;
        mailed := mailed w ++ [(d, m)]; closed := closed w;
        logged := logged w |}).

(** [log.Println(line)]. *)
Definition log_Println (line : string) : M unit :=
  fun w =>
    (tt,
     {| the_alert := the_alert w; posted := posted w; mailed := mailed w;
        closed := closed w; logged := logged w ++ [line] |}).

End Effects.

(** ** The three backends *)

Section Backends.

Context {AM : AlertMethods} {T : Transport} {EV : ErrorValues}.

(** *** Email *)

(** The subject loop of [Email.Alert]:
    [for i := range a.SubjectAddendums], appending the addendum and a
    space, and the three dots when [i == 2].  The loop runs to the end
    of the slice. *)
Fixpoint subject_loop (i : nat) (addendums : list string) (subject : string)
  : string :=
  match addendums with
  | [] => subject
  | s :: rest =>
      let subject := subject ++ (s ++ " ") in
      let subject := if (i =? 2)%nat then subject ++ "..." else subject in
      subject_loop (S i) rest subject
  end.

Definition Email_subject (e : Email) (addendums : list string) : string :=
  subject_loop 0 addendums (Subject e ++ ": ").

Definition Email_message (e : Email) (subject html : string)
  : gomail.Message :=
  let to := GoString.Join (elems (To e)) "," in
  let m := gomail.NewMessage in
  let m := gomail.SetBody m "text/html" html in
  gomail.SetHeaders m
    [("From", [From e]); ("To", [to]); ("Subject", [subject])].

(** The dialer: the port is whatever [strconv.Atoi] yields, its error
    is dropped ([port, _ := strconv.Atoi(e.Port)]). *)
Definition Email_dialer (e : Email) : gomail.Dialer :=
  let (port, _) := strconv.Atoi (Port e) in
  gomail.NewPlainDialer (SMTP e) port (Username e) (Password e).

Definition Email_Alert (e : Email) : M (option error) :=
  addendums <- get_SubjectAddendums ;;
  let subject := Email_subject e addendums in
  html <- call_DumpEmail ;;
  let m := Email_message e subject html in
  let d := Email_dialer e in
  err <- DialAndSend d m ;;
  match err with
  | Some err => ret (Some (errors_Wrap err "error sending email"))
  | None =>
      log_Println "alert email sent" ;;
      ret None
  end.

Definition append_if (c : bool) (errString : list string) (msg : string)
  : list string :=
  if c then errString ++ [msg] else errString.

(** The messages [Email.Valid] collects once the struct is known not to
    be the zero value. *)
Definition Email_errString (e : Email) : list string :=
  let errString := [] in
  let errString :=
    append_if (String.eqb (SMTP e) "") errString (Error ErrEmailNoSMTP) in
  let errString :=
    append_if (len (To e) <? 1)%nat errString (Error ErrEmailNoTo) in
  let errString :=
    append_if (String.eqb (From e) "") errString (Error ErrEmailNoFrom) in
  let errString :=
    append_if (String.eqb (Username e) "") errString (Error ErrEmailNoUser) in
  let errString :=
    append_if (String.eqb (Password e) "") errString (Error ErrEmailNoPass) in
  let errString :=
    append_if (String.eqb (Port e) "") errString (Error ErrEmailNoPort) in
  append_if (String.eqb (Subject e) "") errString (Error ErrEmailNoSubject).

(** The tail shared by the three [Valid] methods: nil when nothing was
    collected, otherwise the joined messages under a context. *)
Definition validation_error (errString : list string) (context : string)
  : option error :=
  if (List.length errString =? 0)%nat then None
  else
    let delimErr := GoString.Join errString ", " in
    let err := errors_New delimErr in
    Some (errors_Wrap err context).

Definition Email_Valid (e : Email) : option error :=
  if reflect.DeepEqual_Email Email_zero e then None
  else validation_error (Email_errString e) "email settings validation fail".

(** *** Slack *)

Definition Slack_errString (s : Slack) : list string :=
  append_if (String.eqb (WebhookURL s) "") [] (Error ErrSlackNoWebHookURL).

Definition Slack_Valid (s : Slack) : option error :=
  if reflect.DeepEqual_Slack Slack_zero s then None
  else validation_error (Slack_errString s) "slack settings validation fail".

(** [fmt.Sprintf] of the format [{"text": "%s"}]. *)
Definition Slack_json (alerts : string) : string :=
  "{" ++ GoString.dquote ++ "text" ++ GoString.dquote ++ ": "
  ++ GoString.dquote ++ alerts ++ GoString.dquote ++ "}".

Definition Slack_Alert (s : Slack) : M (option error) :=
  alerts <- call_Dump ;;
  let json := Slack_json alerts in
  r <- http_Post (WebhookURL s) "application/json" json ;;
  match r with
  | inr err => ret (Some err)
  | inl resp =>
      log_Println "sent alert to slack" ;;
      Body_Close resp ;;
      ret None
  end.

(** *** Pushover *)

Definition Pushover_errString (p : Pushover) : list string :=
  let errString := [] in
  let errString :=
    append_if (String.eqb (APIToken p) "") errString
      (Error ErrPushoverAPIToken) in
  let errString :=
    append_if (String.eqb (UserKey p) "") errString
      (Error ErrPushoverUserKey) in
  append_if (String.eqb (APIURL p) "") errString (Error ErrPushoverAPIURL).

Definition Pushover_Valid (p : Pushover) : option error :=
  if reflect.DeepEqual_Pushover Pushover_zero p then None
  else
    validation_error (Pushover_errString p)
      "pushover settings validation fail".

(** [fmt.Sprintf("token=%s&user=%s&message=%s", p.APIToken, p.UserKey,
    url.QueryEscape(alerts))]. *)
Definition Pushover_parsedBody (p : Pushover) (alerts : string) : string :=
  "token=" ++ APIToken p ++ "&user=" ++ UserKey p ++ "&message="
  ++ url.QueryEscape alerts.

Definition Pushover_Alert (p : Pushover) : M (option error) :=
  alerts <- call_Dump ;;
  let parsedBody := Pushover_parsedBody p alerts in
  r <- http_Post (APIURL p) "application/x-www-form-urlencoded" parsedBody ;;
  match r with
  | inr err => ret (Some err)
  | inl resp =>
      log_Println "sent alert to pushover" ;;
      Body_Close resp ;;
      ret None
  end.

End Backends.

(** The body the wire format of the specification asks of the push
    backend: all three components form-urlencoded. *)
Definition Pushover_body_as_specified (p : Pushover) (alerts : string) : string :=
  "token=" ++ url.QueryEscape (APIToken p) ++ "&user="
  ++ url.QueryEscape (UserKey p) ++ "&message=" ++ url.QueryEscape alerts.

(** The addendums, each followed by a space. *)
Fixpoint spaced (addendums : list string) : string :=
  match addendums with
  | [] => ""
  | s :: rest => s ++ " " ++ spaced rest
  end.

(** The subject the truncation rule of the specification asks for: the
    first three addendums at most, each followed by a space, and the
    three dots only when there were more than three. *)
Definition subject_as_specified (prefix : string) (addendums : list string)
  : string :=
  prefix ++ ": " ++ spaced (firstn 3 addendums)
  ++ (if (3 <? List.length addendums)%nat then "..." else "").

(** The requests the two webhook backends hand to [http.Post]. *)
Definition Slack_request {AM : AlertMethods} (s : Slack) (w : World)
  : http.Request :=
  {| http.URL := WebhookURL s;
     http.ContentType := "application/json";
     http.Body := Slack_json (fst (Dump (the_alert w))) |}.

Definition Pushover_request {AM : AlertMethods} (p : Pushover) (w : World)
  : http.Request :=
  {| http.URL := APIURL p;
     http.ContentType := "application/x-www-form-urlencoded";
     http.Body := Pushover_parsedBody p (fst (Dump (the_alert w))) |}.

(** The message [Email.Alert] composes in a given world. *)
Definition Email_composed {AM : AlertMethods} (e : Email) (w : World)
  : gomail.Message :=
  Email_message e (Email_subject e (SubjectAddendums (the_alert w)))
    (fst (DumpEmail (the_alert w))).

(** A configuration with every field unset. *)
Definition Email_unset (e : Email) : Prop :=
  SMTP e = "" /\ Username e = "" /\ Password e = "" /\ Port e = ""
  /\ From e = "" /\ To e = None /\ Subject e = "".

Definition Slack_unset (s : Slack) : Prop := WebhookURL s = "".

Definition Pushover_unset (p : Pushover) : Prop :=
  APIToken p = "" /\ UserKey p = "" /\ APIURL p = "".


(** Every byte of [s] passes [p]. *)
Definition all_bytes (p : ascii -> bool) (s : string) : bool :=
  forallb p (list_ascii_of_string s).

(** The subject for any number of addendums, as the loop leaves it: the
    first three, the three dots once a third exists, then the others. *)
Definition subject_closed_form (prefix : string) (addendums : list string)
  : string :=
  prefix ++ ": " ++ spaced (firstn 3 addendums)
  ++ (if (3 <=? List.length addendums)%nat then "..." else "")
  ++ spaced (skipn 3 addendums).

(** An Email configuration with all seven settings present. *)
Definition Email_complete (e : Email) : Prop :=
  SMTP e <> "" /\ 1 <= len (To e) /\ From e <> "" /\ Username e <> ""
  /\ Password e <> "" /\ Port e <> "" /\ Subject e <> "".

Definition Pushover_complete (p : Pushover) : Prop :=
  APIToken p <> "" /\ UserKey p <> "" /\ APIURL p <> "".

(** ** Sample instances *)

Module Sample.

(** A rendering that reads the message and writes nothing. *)
Definition plain : AlertMethods :=
  {| Dump := fun a => (Message a, a);
     DumpEmail := fun a => ("<p>" ++ Message a ++ "</p>", a) |}.

(** Stand-in texts for the error values. *)
Definition messages : ErrorValues :=
  {| ErrEmailNoSMTP := errors_New "no email SMTP server";
     ErrEmailNoTo := errors_New "no email recipients";
     ErrEmailNoFrom := errors_New "no email sender";
     ErrEmailNoUser := errors_New "no email username";
     ErrEmailNoPass := errors_New "no email password";
     ErrEmailNoPort := errors_New "no email port";
     ErrEmailNoSubject := errors_New "no email subject";
     ErrSlackNoWebHookURL := errors_New "no slack webhook url";
     ErrPushoverAPIToken := errors_New "no pushover api token";
     ErrPushoverUserKey := errors_New "no pushover user key";
     ErrPushoverAPIURL := errors_New "no pushover api url" |}.

(** A network on which everything goes through, with a given status. *)
Definition up (status : Z) : Transport :=
  {| post_outcome := fun _ => inl {| http.StatusCode := status |};
     send_outcome := fun _ _ => None |}.

(** A network on which nothing goes through. *)
Definition down : Transport :=
  {| post_outcome := fun _ => inr (transport_error "connection refused");
     send_outcome := fun _ _ => Some (transport_error "connection refused") |}.

Definition alert (msg : string) (addendums : list string) : Alert :=
  {| Message := msg; SubjectAddendums := addendums |}.

Definition world (a : Alert) : World :=
  {| the_alert := a; posted := []; mailed := []; closed := [];
     logged := [] |}.

Definition email : Email :=
  {| SMTP := "smtp.example.com"; Username := "bot"; Password := "secret";
     Port := "587"; From := "bot@example.com";
     To := Some ["ops@example.com"; "dev@example.com"]; Subject := "ALERT" |}.

Definition slack : Slack := {| WebhookURL := "https://hooks.example.com/x" |}.

Definition pushover : Pushover :=
  {| APIToken := "T"; UserKey := "U"; APIURL := "https://api.example.com/1" |}.

End Sample.

(** * Properties *)

(** ** Strings and numbers *)

Lemma append_nil_r (s : string) : s ++ "" = s.
Proof. induction s as [|c s IH]; simpl; [reflexivity | now rewrite IH]. Qed.

Lemma append_assoc (s t u : string) : (s ++ t) ++ u = s ++ (t ++ u).
Proof. induction s as [|c s IH]; simpl; [reflexivity | now rewrite IH]. Qed.

Lemma prefix_append (p s : string) : String.prefix p (p ++ s) = true.
Proof.
  induction p as [|c p IH]; simpl.
  - now destruct s.
  - destruct (ascii_dec c c) as [_|ne]; [exact IH | now elim ne].
Qed.

Lemma Contains_prefix (s sub : string) :
  String.prefix sub s = true -> GoString.Contains s sub = true.
Proof. intros H. destruct s; cbn [GoString.Contains]; rewrite H; reflexivity. Qed.

Lemma Contains_here (p s : string) : GoString.Contains (p ++ s) p = true.
Proof. apply Contains_prefix, prefix_append. Qed.

Lemma Contains_skip (pre s sub : string) :
  GoString.Contains s sub = true -> GoString.Contains (pre ++ s) sub = true.
Proof.
  intros H. induction pre as [|c pre IH]; [exact H|].
  cbn [append GoString.Contains]. rewrite IH. apply orb_true_r.
Qed.

Lemma Contains_middle (pre sub post : string) :
  GoString.Contains (pre ++ sub ++ post) sub = true.
Proof. apply Contains_skip, Contains_here. Qed.

Lemma Contains_refl (s : string) : GoString.Contains s s = true.
Proof.
  rewrite <- (append_nil_r s) at 1. apply Contains_here.
Qed.

Example QueryEscape_spaces : url.QueryEscape "host X failed" = "host+X+failed".
Proof. reflexivity. Qed.

Example QueryEscape_reserved : url.QueryEscape "a&b=c/d" = "a%26b%3Dc%2Fd".
Proof. reflexivity. Qed.

Example Atoi_587 : strconv.Atoi "587" = (587%Z, None).
Proof. reflexivity. Qed.

Example Atoi_smtp :
  strconv.Atoi "smtp" = (0%Z, Some (strconv.syntaxError "smtp")).
Proof. reflexivity. Qed.

(** ** Running the backends *)

Ltac run_backend :=
  unfold result, after, Email_Alert, Slack_Alert, Pushover_Alert, bind, ret,
    get_SubjectAddendums, call_Dump, call_DumpEmail, http_Post, DialAndSend,
    log_Println, Body_Close, Email_composed, Slack_request, Pushover_request,
    set_alert;
  cbn [fst snd the_alert posted mailed closed logged].

Section Runs.

Context {AM : AlertMethods} {T : Transport}.

Lemma Email_Alert_result (e : Email) (w : World) :
  result (Email_Alert e) w =
  match send_outcome (Email_dialer e) (Email_composed e w) with
  | Some err => Some (errors_Wrap err "error sending email")
  | None => None
  end.
Proof.
  run_backend. destruct (DumpEmail (the_alert w)) as [html a'].
  cbn [fst snd the_alert]. now destruct (send_outcome _ _).
Qed.

Lemma Email_Alert_mailed (e : Email) (w : World) :
  mailed (after (Email_Alert e) w) =
  (mailed w ++ [(Email_dialer e, Email_composed e w)])%list.
Proof.
  run_backend. destruct (DumpEmail (the_alert w)) as [html a'].
  cbn [fst snd the_alert]. now destruct (send_outcome _ _).
Qed.

Lemma Email_Alert_logged (e : Email) (w : World) :
  logged (after (Email_Alert e) w) =
  match send_outcome (Email_dialer e) (Email_composed e w) with
  | Some _ => logged w
  | None => (logged w ++ ["alert email sent"])%list
  end.
Proof.
  run_backend. destruct (DumpEmail (the_alert w)) as [html a'].
  cbn [fst snd the_alert]. now destruct (send_outcome _ _).
Qed.

Lemma Email_Alert_alert (e : Email) (w : World) :
  the_alert (after (Email_Alert e) w) = snd (DumpEmail (the_alert w)).
Proof.
  run_backend. destruct (DumpEmail (the_alert w)) as [html a'].
  cbn [fst snd the_alert]. now destruct (send_outcome _ _).
Qed.

Lemma Slack_Alert_result (s : Slack) (w : World) :
  result (Slack_Alert s) w =
  match post_outcome (Slack_request s w) with
  | inl _ => None
  | inr err => Some err
  end.
Proof.
  run_backend. destruct (Dump (the_alert w)) as [alerts a'].
  cbn [fst snd the_alert]. now destruct (post_outcome _).
Qed.

Lemma Slack_Alert_posted (s : Slack) (w : World) :
  posted (after (Slack_Alert s) w) = (posted w ++ [Slack_request s w])%list.
Proof.
  run_backend. destruct (Dump (the_alert w)) as [alerts a'].
  cbn [fst snd the_alert]. now destruct (post_outcome _).
Qed.

Lemma Slack_Alert_alert (s : Slack) (w : World) :
  the_alert (after (Slack_Alert s) w) = snd (Dump (the_alert w)).
Proof.
  run_backend. destruct (Dump (the_alert w)) as [alerts a'].
  cbn [fst snd the_alert]. now destruct (post_outcome _).
Qed.

Lemma Pushover_Alert_result (p : Pushover) (w : World) :
  result (Pushover_Alert p) w =
  match post_outcome (Pushover_request p w) with
  | inl _ => None
  | inr err => Some err
  end.
Proof.
  run_backend. destruct (Dump (the_alert w)) as [alerts a'].
  cbn [fst snd the_alert]. now destruct (post_outcome _).
Qed.

Lemma Pushover_Alert_posted (p : Pushover) (w : World) :
  posted (after (Pushover_Alert p) w) = (posted w ++ [Pushover_request p w])%list.
Proof.
  run_backend. destruct (Dump (the_alert w)) as [alerts a'].
  cbn [fst snd the_alert]. now destruct (post_outcome _).
Qed.

Lemma Pushover_Alert_alert (p : Pushover) (w : World) :
  the_alert (after (Pushover_Alert p) w) = snd (Dump (the_alert w)).
Proof.
  run_backend. destruct (Dump (the_alert w)) as [alerts a'].
  cbn [fst snd the_alert]. now destruct (post_outcome _).
Qed.

End Runs.

(** ** The subject line *)

Lemma subject_loop_acc (addendums : list string) :
  forall (i : nat) (acc : string),
    subject_loop i addendums acc = acc ++ subject_loop i addendums "".
Proof.
  induction addendums as [|s rest IH]; intros i acc; cbn [subject_loop].
  - now rewrite append_nil_r.
  - rewrite IH. rewrite (IH (S i) (if (i =? 2)%nat then _ else _)).
    destruct (i =? 2)%nat; cbn [append];
      now rewrite <- ?append_assoc.
Qed.

(** Before index 2 is reached the loop only appends addendums. *)
Lemma subject_loop_short (addendums : list string) :
  forall (i : nat) (acc : string),
    i + List.length addendums <= 2 ->
    subject_loop i addendums acc = acc ++ spaced addendums.
Proof.
  induction addendums as [|s rest IH]; intros i acc Hlen; cbn [subject_loop spaced].
  - now rewrite append_nil_r.
  - cbn [List.length] in Hlen.
    destruct (Nat.eqb_spec i 2) as [->|_]; [lia|].
    rewrite IH by lia. now rewrite !append_assoc.
Qed.

(** The third addendum brings the three dots with it, whatever follows. *)
Lemma subject_loop_three (a b c : string) (rest : list string) (acc : string) :
  subject_loop 0 (a :: b :: c :: rest) acc =
  acc ++ spaced [a; b; c] ++ "..." ++ subject_loop 3 rest "".
Proof.
  cbn [subject_loop Nat.eqb spaced].
  rewrite subject_loop_acc. now rewrite !append_assoc.
Qed.

(** After index 2 the loop goes on appending. *)
Lemma subject_loop_late (addendums : list string) :
  forall (i : nat) (acc : string),
    3 <= i -> subject_loop i addendums acc = acc ++ spaced addendums.
Proof.
  induction addendums as [|s rest IH]; intros i acc Hi; cbn [subject_loop spaced].
  - now rewrite append_nil_r.
  - destruct (Nat.eqb_spec i 2) as [->|_]; [lia|].
    rewrite IH by lia. now rewrite !append_assoc.
Qed.

(** Past the third addendum the loop does not stop: the rest follows
    the three dots. *)
Lemma Email_subject_beyond_three (e : Email) (a b c : string) (rest : list string) :
  Email_subject e (a :: b :: c :: rest)
  = Subject e ++ ": " ++ spaced [a; b; c] ++ "..." ++ spaced rest.
Proof.
  unfold Email_subject. rewrite subject_loop_three.
  rewrite (@subject_loop_late rest 3 "") by lia.
  now rewrite !append_assoc.
Qed.

Example Email_subject_four :
  Email_subject Sample.email ["a"; "b"; "c"; "d"] = "ALERT: a b c ...d ".
Proof. reflexivity. Qed.

(** C1 (as amended).  With at most three addendums, the subject that
    [Email.Alert] puts on the message is the prefix, a colon and a space,
    then every addendum followed by a space, and the three dots exactly
    when the third addendum (index 2) was reached, that is when there
    are three addendums. *)
Theorem Email_subject_up_to_three
  (AM : AlertMethods) (T : Transport) (e : Email) (w : World) :
  List.length (SubjectAddendums (the_alert w)) <= 3 ->
  let addendums := SubjectAddendums (the_alert w) in
  let subject :=
    Subject e ++ ": " ++ spaced addendums
    ++ (if (List.length addendums =? 3)%nat then "..." else "") in
  Email_subject e addendums = subject
  /\ exists d m,
      mailed (after (Email_Alert e) w) = (mailed w ++ [(d, m)])%list
      /\ gomail.GetHeader m "Subject" = [subject].
Proof.
  intros Hlen addendums subject.
  assert (Hs : Email_subject e addendums = subject).
  { subst subject. unfold Email_subject.
    destruct (Nat.eqb_spec (List.length addendums) 3) as [H3|H3].
    - destruct addendums as [|a [|b [|c [|d rest]]]]; try discriminate H3.
      rewrite subject_loop_three. cbn [subject_loop].
      now rewrite !append_assoc.
    - rewrite subject_loop_short by (cbn; fold addendums in Hlen; lia).
      now rewrite !append_assoc, append_nil_r. }
  split; [exact Hs|].
  exists (Email_dialer e), (Email_composed e w). split.
  - apply Email_Alert_mailed.
  - unfold Email_composed. fold addendums. rewrite Hs. reflexivity.
Qed.

Lemma Email_subject_up_to_three_witness :
  Email_subject Sample.email ["a"; "b"] = "ALERT: a b "
  /\ Email_subject Sample.email ["a"; "b"; "c"] = "ALERT: a b c ...".
Proof.
  split.
  - apply (@Email_subject_up_to_three Sample.plain (Sample.up 200) Sample.email
             (Sample.world (Sample.alert "down" ["a"; "b"]))).
    simpl. lia.
  - apply (@Email_subject_up_to_three Sample.plain (Sample.up 200) Sample.email
             (Sample.world (Sample.alert "down" ["a"; "b"; "c"]))).
    simpl. lia.
Defined.

(** C1, as stated, fails on three addendums: the code appends the three
    dots although there were not more than three. *)
Lemma Email_subject_three_not_as_specified :
  Email_subject Sample.email ["a"; "b"; "c"]
  <> subject_as_specified (Subject Sample.email) ["a"; "b"; "c"].
Proof. vm_compute. discriminate. Qed.

(** ** Validation *)

(** C3.  A configuration with every field unset is taken as an omitted
    channel: for each of the three backends [Valid] returns nil. *)
Theorem Valid_unset_is_nil
  (EV : ErrorValues) (e : Email) (s : Slack) (p : Pushover) :
  Email_unset e -> Slack_unset s -> Pushover_unset p ->
  Email_Valid e = None /\ Slack_Valid s = None /\ Pushover_Valid p = None.
Proof.
  intros (H1 & H2 & H3 & H4 & H5 & H6 & H7) Hs (P1 & P2 & P3).
  destruct e as [smtp user pass port from to subj].
  destruct s as [hook]. destruct p as [token key api].
  unfold Slack_unset in Hs. cbn in *. subst.
  repeat split.
Qed.

Lemma Valid_unset_is_nil_witness :
  @Email_Valid Sample.messages Email_zero = None
  /\ @Slack_Valid Sample.messages Slack_zero = None
  /\ @Pushover_Valid Sample.messages Pushover_zero = None.
Proof.
  apply (@Valid_unset_is_nil Sample.messages Email_zero Slack_zero Pushover_zero).
  - unfold Email_unset. simpl. repeat split; reflexivity.
  - reflexivity.
  - unfold Pushover_unset. simpl. repeat split; reflexivity.
Defined.

(** An empty recipient list that is not the nil slice is not the zero
    value: such a configuration is validated, and fails. *)
Example Email_Valid_empty_non_nil_To :
  @Email_Valid Sample.messages
    {| SMTP := ""; Username := ""; Password := ""; Port := ""; From := "";
       To := Some []; Subject := "" |} <> None.
Proof. vm_compute. discriminate. Qed.

(** C9.  No Slack configuration fails validation: an empty webhook URL
    makes the struct the zero value, which is taken as omitted before the
    field is looked at, and a non-empty one passes the only check. *)
Theorem Slack_Valid_always_nil (EV : ErrorValues) (s : Slack) :
  Slack_Valid s = None.
Proof.
  destruct s as [hook]. unfold Slack_Valid, reflect.DeepEqual_Slack, Slack_errString.
  cbn [WebhookURL Slack_zero].
  destruct hook as [|c hook]; reflexivity.
Qed.

(** C4.  An Email configuration that lacks exactly [From] and [Password]
    fails validation with one error: the From and Password messages, and
    no other, joined by a comma and a space, under the context
    "email settings validation fail". *)
Theorem Email_Valid_missing_From_and_Password (EV : ErrorValues) (e : Email) :
  SMTP e <> "" -> 1 <= len (To e) -> Username e <> "" -> Port e <> "" ->
  Subject e <> "" -> From e = "" -> Password e = "" ->
  let text :=
    "email settings validation fail: "
    ++ Error ErrEmailNoFrom ++ ", " ++ Error ErrEmailNoPass in
  Email_errString e = [Error ErrEmailNoFrom; Error ErrEmailNoPass]
  /\ (forall msg, In msg (Email_errString e) ->
        msg = Error ErrEmailNoFrom \/ msg = Error ErrEmailNoPass)
  /\ Email_Valid e =
       Some (errors_Wrap
               (errors_New (Error ErrEmailNoFrom ++ ", " ++ Error ErrEmailNoPass))
               "email settings validation fail")
  /\ (forall err, Email_Valid e = Some err -> Error err = text)
  /\ GoString.Contains text (Error ErrEmailNoFrom) = true
  /\ GoString.Contains text (Error ErrEmailNoPass) = true.
Proof.
  intros Hsmtp Hto Huser Hport Hsubj Hfrom Hpass text.
  destruct e as [smtp user pass port from to subj]. cbn in *. subst from pass.
  assert (Hlist : Email_errString
                    {| SMTP := smtp; Username := user; Password := "";
                       Port := port; From := ""; To := to; Subject := subj |}
                  = [Error ErrEmailNoFrom; Error ErrEmailNoPass]).
  { unfold Email_errString, append_if. cbn [SMTP Username Password Port From To Subject].
    destruct smtp; [contradiction|]. destruct user; [contradiction|].
    destruct port; [contradiction|]. destruct subj; [contradiction|].
    destruct (Nat.ltb_spec (len to) 1); [lia|]. reflexivity. }
  assert (Hvalid : Email_Valid
                     {| SMTP := smtp; Username := user; Password := "";
                        Port := port; From := ""; To := to; Subject := subj |}
                   = Some (errors_Wrap
                             (errors_New
                                (Error ErrEmailNoFrom ++ ", " ++ Error ErrEmailNoPass))
                             "email settings validation fail")).
  { unfold Email_Valid. rewrite Hlist.
    unfold reflect.DeepEqual_Email. cbn [SMTP Email_zero].
    destruct smtp; [contradiction|]. reflexivity. }
  split; [exact Hlist|]. split.
  { rewrite Hlist. intros msg [<-|[<-|[]]]; auto. }
  split; [exact Hvalid|]. split.
  { rewrite Hvalid. intros err [= <-]. reflexivity. }
  split.
  - apply (Contains_middle "email settings validation fail: ").
  - subst text. apply (Contains_skip "email settings validation fail: ").
    apply (Contains_skip (Error ErrEmailNoFrom)).
    apply (Contains_skip ", "). apply Contains_refl.
Qed.

Lemma Email_Valid_missing_From_and_Password_witness :
  let e := {| SMTP := "smtp.example.com"; Username := "bot"; Password := "";
              Port := "587"; From := ""; To := Some ["ops@example.com"];
              Subject := "ALERT" |} in
  let text := "email settings validation fail: no email sender, no email password" in
  (forall err, @Email_Valid Sample.messages e = Some err -> Error err = text)
  /\ forallb (fun m => negb (GoString.Contains text (Error m)))
       [@ErrEmailNoSMTP Sample.messages; @ErrEmailNoTo Sample.messages;
        @ErrEmailNoUser Sample.messages; @ErrEmailNoPort Sample.messages;
        @ErrEmailNoSubject Sample.messages] = true.
Proof.
  intros e text. split; [|reflexivity].
  apply (@Email_Valid_missing_From_and_Password Sample.messages e);
    simpl; try discriminate; try reflexivity; lia.
Defined.

(** ** Wire formats *)

(** C5.  [Slack.Alert] posts, with content type application/json, the
    text of [Dump] put as it is between the bytes of
    [{"text": "] and ["}]: nothing in it is escaped. *)
Theorem Slack_Alert_body (AM : AlertMethods) (T : Transport) (s : Slack) (w : World) :
  let q := GoString.dquote in
  exists r,
    posted (after (Slack_Alert s) w) = (posted w ++ [r])%list
    /\ http.URL r = WebhookURL s
    /\ http.ContentType r = "application/json"
    /\ http.Body r =
         "{" ++ q ++ "text" ++ q ++ ": " ++ q ++ fst (Dump (the_alert w)) ++ q ++ "}"
    /\ (fst (Dump (the_alert w)) = "status: down" ->
        http.Body r =
          "{" ++ q ++ "text" ++ q ++ ": " ++ q ++ "status: down" ++ q ++ "}").
Proof.
  intros q. exists (Slack_request s w). split; [apply Slack_Alert_posted|].
  repeat split. cbn [Slack_request http.Body]. intros ->. reflexivity.
Qed.

Lemma Slack_Alert_body_witness :
  let q := GoString.dquote in
  exists r,
    posted (after (@Slack_Alert Sample.plain (Sample.up 200) Sample.slack)
              (Sample.world (Sample.alert "status: down" [])))
    = [r]
    /\ http.Body r =
         "{" ++ q ++ "text" ++ q ++ ": " ++ q ++ "status: down" ++ q ++ "}".
Proof.
  intros q.
  destruct (@Slack_Alert_body Sample.plain (Sample.up 200) Sample.slack
              (Sample.world (Sample.alert "status: down" [])))
    as (r & Hposted & _ & _ & _ & Hdown).
  exists r. split; [exact Hposted | apply Hdown; reflexivity].
Defined.

(** A double quote in the rendering reaches the body as it is. *)
Example Slack_json_raw_quote :
  Slack_json ("a" ++ GoString.dquote ++ "b")
  = "{" ++ GoString.dquote ++ "text" ++ GoString.dquote ++ ": "
    ++ GoString.dquote ++ "a" ++ GoString.dquote ++ "b" ++ GoString.dquote ++ "}".
Proof. reflexivity. Qed.

(** C2 (as amended).  [Pushover.Alert] posts, with content type
    application/x-www-form-urlencoded, the body
    [token=<token>&user=<key>&message=<dump>] in which the rendering
    alone is form-urlencoded; the token and the user key go in as they
    are configured, so the body has the all-encoded form whenever
    encoding leaves them as they are. *)
Theorem Pushover_Alert_body
  (AM : AlertMethods) (T : Transport) (p : Pushover) (w : World) :
  exists r,
    posted (after (Pushover_Alert p) w) = (posted w ++ [r])%list
    /\ http.URL r = APIURL p
    /\ http.ContentType r = "application/x-www-form-urlencoded"
    /\ http.Body r =
         "token=" ++ APIToken p ++ "&user=" ++ UserKey p ++ "&message="
         ++ url.QueryEscape (fst (Dump (the_alert w)))
    /\ (url.QueryEscape (APIToken p) = APIToken p ->
        url.QueryEscape (UserKey p) = UserKey p ->
        http.Body r = Pushover_body_as_specified p (fst (Dump (the_alert w))))
    /\ (APIToken p = "T" -> UserKey p = "U" ->
        fst (Dump (the_alert w)) = "host X failed" ->
        http.Body r = "token=T&user=U&message=host+X+failed").
Proof.
  exists (Pushover_request p w). split; [apply Pushover_Alert_posted|].
  repeat split; cbn [Pushover_request http.Body]; unfold Pushover_parsedBody.
  - intros Ht Hu. unfold Pushover_body_as_specified. now rewrite Ht, Hu.
  - intros -> -> ->. reflexivity.
Qed.

Lemma Pushover_Alert_body_witness :
  exists r,
    posted (after (@Pushover_Alert Sample.plain Sample.down Sample.pushover)
              (Sample.world (Sample.alert "host X failed" [])))
    = [r]
    /\ http.Body r = "token=T&user=U&message=host+X+failed"
    /\ http.Body r = Pushover_body_as_specified Sample.pushover "host X failed".
Proof.
  destruct (@Pushover_Alert_body Sample.plain Sample.down Sample.pushover
              (Sample.world (Sample.alert "host X failed" [])))
    as (r & Hposted & _ & _ & _ & Hspec & Hex).
  exists r. split; [exact Hposted|]. split.
  - apply Hex; reflexivity.
  - apply Hspec; reflexivity.
Defined.

(** C2, as stated, fails on a token with a space in it: the code sends
    the space, the all-encoded form has a plus sign there. *)
Lemma Pushover_token_not_encoded :
  let p := {| APIToken := "a b"; UserKey := "U";
              APIURL := "https://api.example.com/1" |} in
  Pushover_parsedBody p "x" = "token=a b&user=U&message=x"
  /\ Pushover_body_as_specified p "x" = "token=a+b&user=U&message=x"
  /\ Pushover_parsedBody p "x" <> Pushover_body_as_specified p "x".
Proof. vm_compute. repeat split. discriminate. Qed.

(** ** Outcomes of a delivery *)

(** C6.  For Slack and for Pushover, [Alert] returns nil as soon as
    [http.Post] hands back a response, whatever its status code, and
    returns the error of [http.Post] itself, not wrapped, otherwise. *)
Theorem webhook_Alert_outcome
  (AM : AlertMethods) (T : Transport) (s : Slack) (p : Pushover) (w : World) :
  (forall resp, post_outcome (Slack_request s w) = inl resp ->
     result (Slack_Alert s) w = None)
  /\ (forall err, post_outcome (Slack_request s w) = inr err ->
        result (Slack_Alert s) w = Some err)
  /\ (forall resp, post_outcome (Pushover_request p w) = inl resp ->
        result (Pushover_Alert p) w = None)
  /\ (forall err, post_outcome (Pushover_request p w) = inr err ->
        result (Pushover_Alert p) w = Some err).
Proof.
  rewrite Slack_Alert_result, Pushover_Alert_result.
  repeat split; intros x ->; reflexivity.
Qed.

Lemma webhook_Alert_outcome_witness :
  let w := Sample.world (Sample.alert "down" []) in
  result (@Slack_Alert Sample.plain (Sample.up 500) Sample.slack) w = None
  /\ result (@Pushover_Alert Sample.plain (Sample.up 404) Sample.pushover) w = None
  /\ result (@Slack_Alert Sample.plain Sample.down Sample.slack) w
     = Some (transport_error "connection refused")
  /\ result (@Pushover_Alert Sample.plain Sample.down Sample.pushover) w
     = Some (transport_error "connection refused").
Proof.
  intros w.
  destruct (@webhook_Alert_outcome Sample.plain (Sample.up 500)
              Sample.slack Sample.pushover w) as (Hs & _ & _ & _).
  destruct (@webhook_Alert_outcome Sample.plain (Sample.up 404)
              Sample.slack Sample.pushover w) as (_ & _ & Hp & _).
  destruct (@webhook_Alert_outcome Sample.plain Sample.down
              Sample.slack Sample.pushover w) as (_ & Hse & _ & Hpe).
  split; [apply (Hs {| http.StatusCode := 500 |}); reflexivity|].
  split; [apply (Hp {| http.StatusCode := 404 |}); reflexivity|].
  split; [apply Hse; reflexivity | apply Hpe; reflexivity].
Defined.

(** C7.  When dial-and-send fails, [Email.Alert] returns its error under
    the context "error sending email"; when it succeeds, [Email.Alert]
    logs the one line "alert email sent" and returns nil. *)
Theorem Email_Alert_outcome
  (AM : AlertMethods) (T : Transport) (e : Email) (w : World) :
  (forall err,
     send_outcome (Email_dialer e) (Email_composed e w) = Some err ->
     result (Email_Alert e) w = Some (errors_Wrap err "error sending email")
     /\ Error (errors_Wrap err "error sending email")
        = "error sending email: " ++ Error err
     /\ logged (after (Email_Alert e) w) = logged w)
  /\ (send_outcome (Email_dialer e) (Email_composed e w) = None ->
      result (Email_Alert e) w = None
      /\ logged (after (Email_Alert e) w) = (logged w ++ ["alert email sent"])%list).
Proof.
  rewrite Email_Alert_result, Email_Alert_logged.
  split; [intros err ->|intros ->]; repeat split.
Qed.

Lemma Email_Alert_outcome_witness :
  let w := Sample.world (Sample.alert "down" ["web"]) in
  (result (@Email_Alert Sample.plain Sample.down Sample.email) w
   = Some (errors_Wrap (transport_error "connection refused") "error sending email"))
  /\ (result (@Email_Alert Sample.plain (Sample.up 200) Sample.email) w = None
      /\ logged (after (@Email_Alert Sample.plain (Sample.up 200) Sample.email) w)
         = ["alert email sent"]).
Proof.
  intros w. split.
  - apply (proj1 (@Email_Alert_outcome Sample.plain Sample.down Sample.email w)
             (transport_error "connection refused")).
    reflexivity.
  - apply (proj2 (@Email_Alert_outcome Sample.plain (Sample.up 200) Sample.email w)).
    reflexivity.
Defined.

(** ** The alert is left alone *)

(** C8.  As long as the two renderings only read the alert, no backend
    changes it: after [Alert] returns, with an error or without, the
    alert behind the pointer is the one that was passed in. *)
Theorem Alert_not_mutated
  (AM : AlertMethods) (T : Transport)
  (e : Email) (s : Slack) (p : Pushover) (w : World) :
  read_only AM ->
  the_alert (after (Email_Alert e) w) = the_alert w
  /\ the_alert (after (Slack_Alert s) w) = the_alert w
  /\ the_alert (after (Pushover_Alert p) w) = the_alert w.
Proof.
  intros [Hdump Hhtml].
  rewrite Email_Alert_alert, Slack_Alert_alert, Pushover_Alert_alert.
  rewrite Hdump, Hhtml. repeat split.
Qed.

Lemma Alert_not_mutated_witness :
  let a := Sample.alert "down" ["web"; "db"] in
  the_alert (after (@Email_Alert Sample.plain Sample.down Sample.email)
               (Sample.world a)) = a
  /\ the_alert (after (@Slack_Alert Sample.plain (Sample.up 200) Sample.slack)
                  (Sample.world a)) = a.
Proof.
  intros a. split.
  - apply (@Alert_not_mutated Sample.plain Sample.down Sample.email
             Sample.slack Sample.pushover (Sample.world a)).
    split; intros; reflexivity.
  - apply (@Alert_not_mutated Sample.plain (Sample.up 200) Sample.email
             Sample.slack Sample.pushover (Sample.world a)).
    split; intros; reflexivity.
Defined.

(** ** The port *)

Lemma maxUint64_eq : strconv.maxUint64 = 18446744073709551615%Z.
Proof. reflexivity. Qed.

Lemma uint_cutoff_eq : strconv.uint_cutoff = 1844674407370955162%Z.
Proof. reflexivity. Qed.

Lemma cutoff_eq : strconv.cutoff = 9223372036854775808%Z.
Proof. reflexivity. Qed.

Lemma two_64_eq : (2 ^ 64 = 18446744073709551616)%Z.
Proof. reflexivity. Qed.

(** On a byte, [ch - '0' > 9] says that [ch] is not a decimal digit. *)
Lemma fast_digit_test (c : ascii) :
  (9 <? (Z.of_nat (GoString.code c) - 48) mod 256)%Z = negb (strconv.is_digit c)
  /\ (strconv.is_digit c = true ->
      ((Z.of_nat (GoString.code c) - 48) mod 256)%Z = strconv.digit_val c).
Proof.
  destruct c as [[] [] [] [] [] [] [] []]; vm_compute; split;
    intros; try discriminate; reflexivity.
Qed.

Lemma digit_val_range (c : ascii) :
  strconv.is_digit c = true -> (0 <= strconv.digit_val c <= 9)%Z.
Proof.
  unfold strconv.is_digit, strconv.digit_val, GoString.between.
  change (GoString.code "0") with 48. change (GoString.code "9") with 57.
  intros H. apply andb_true_iff in H. destruct H as [Hlo Hhi].
  apply Nat.leb_le in Hlo, Hhi. lia.
Qed.

Lemma digit_not_sign (c : ascii) :
  strconv.is_digit c = true ->
  Ascii.eqb c "-" = false /\ Ascii.eqb c "+" = false.
Proof.
  destruct c as [[] [] [] [] [] [] [] []]; vm_compute;
    intros H; try discriminate H; split; reflexivity.
Qed.


Lemma Atoi_fast_loop_good (s : string) :
  strconv.all_digits s = true ->
  forall n, strconv.Atoi_fast_loop s n = Some (strconv.value_from s n).
Proof.
  unfold strconv.all_digits, strconv.value_from.
  induction s as [|ch s IH];
    cbn [list_ascii_of_string forallb strconv.Atoi_fast_loop fold_left];
    [reflexivity|].
  intros H n. apply andb_true_iff in H. destruct H as [Hch Hs].
  cbv zeta. rewrite (proj1 (fast_digit_test ch)), Hch. cbn [negb].
  rewrite (proj2 (fast_digit_test ch) Hch). apply IH, Hs.
Qed.

Lemma value_from_ge (s : string) :
  strconv.all_digits s = true ->
  forall n, (0 <= n)%Z -> (n <= strconv.value_from s n)%Z.
Proof.
  unfold strconv.all_digits, strconv.value_from.
  induction s as [|ch s IH]; cbn [list_ascii_of_string forallb fold_left];
    [intros; lia|].
  intros H n Hn. apply andb_true_iff in H. destruct H as [Hch Hs].
  pose proof (digit_val_range ch Hch) as Hd.
  specialize (IH Hs (n * 10 + strconv.digit_val ch)%Z). lia.
Qed.


(** On decimal digits whose value fits [uint64] the loop of [ParseUint]
    computes that value. *)
Lemma ParseUint_loop_good (s : string) :
  strconv.all_digits s = true ->
  forall n, (0 <= n)%Z ->
    (strconv.value_from s n <= strconv.maxUint64)%Z ->
    strconv.ParseUint_loop s n = (strconv.value_from s n, None).
Proof.
  induction s as [|c s IH]; [reflexivity|].
  intros H n Hn Hmax.
  assert (Hc : strconv.is_digit c = true /\ strconv.all_digits s = true).
  { unfold strconv.all_digits in *. cbn [list_ascii_of_string forallb] in H.
    now apply andb_true_iff in H. }
  destruct Hc as [Hc Hs].
  pose proof (digit_val_range c Hc) as Hd.
  assert (Hstep : strconv.value_from (String c s) n
                  = strconv.value_from s (n * 10 + strconv.digit_val c)%Z)
    by reflexivity.
  rewrite Hstep in *.
  pose proof (@value_from_ge s Hs (n * 10 + strconv.digit_val c)%Z ltac:(lia)) as Hge.
  rewrite maxUint64_eq in Hmax.
  cbn [strconv.ParseUint_loop]. cbv zeta. rewrite Hc, uint_cutoff_eq, maxUint64_eq.
  rewrite two_64_eq.
  destruct (Z.leb_spec 10 (strconv.digit_val c)); [lia|].
  destruct (Z.leb_spec 1844674407370955162 n); [lia|].
  rewrite (Z.mod_small (n * 10)) by lia.
  rewrite (Z.mod_small (n * 10 + strconv.digit_val c)) by lia.
  destruct (Z.ltb_spec (n * 10 + strconv.digit_val c) (n * 10)); [lia|].
  destruct (Z.ltb_spec 18446744073709551615 (n * 10 + strconv.digit_val c)); [lia|].
  cbn [orb]. apply IH; [exact Hs | lia | rewrite maxUint64_eq; lia].
Qed.

Lemma String_length_pos (s : string) : s <> "" -> 0 < String.length s.
Proof. destruct s; [congruence | cbn; lia]. Qed.




(** A port written in decimal digits, below [2^63], is read as the
    number it writes. *)
Lemma Atoi_decimal (s : string) :
  strconv.all_digits s = true -> s <> "" ->
  (strconv.decimal_value s < strconv.cutoff)%Z ->
  strconv.Atoi s = (strconv.decimal_value s, None).
Proof.
  intros Hall Hne Hval. unfold strconv.decimal_value in *.
  destruct s as [|c0 rest]; [congruence|].
  assert (Hc0 : strconv.is_digit c0 = true).
  { unfold strconv.all_digits in Hall. cbn [list_ascii_of_string forallb] in Hall.
    now apply andb_true_iff in Hall. }
  destruct (digit_not_sign c0 Hc0) as [Hm Hp].
  pose proof (@value_from_ge _ Hall 0%Z ltac:(lia)) as Hge.
  rewrite cutoff_eq in Hval.
  unfold strconv.Atoi. cbv zeta.
  destruct ((0 <? String.length (String c0 rest))%nat
            && (String.length (String c0 rest) <? 19)%nat).
  - rewrite Hm, Hp. cbn [orb andb].
    now rewrite (Atoi_fast_loop_good _ Hall).
  - unfold strconv.ParseInt, strconv.ParseUint. rewrite Hm, Hp.
    rewrite (ParseUint_loop_good _ Hall) by (rewrite ?maxUint64_eq; lia).
    rewrite cutoff_eq. cbn [negb andb].
    destruct (Z.leb_spec 9223372036854775808
                (strconv.value_from (String c0 rest) 0)); [lia|reflexivity].
Qed.



Lemma Email_dialer_Port (e : Email) :
  gomail.Port (Email_dialer e) = fst (strconv.Atoi (Port e)).
Proof. unfold Email_dialer. now destruct (strconv.Atoi (Port e)). Qed.




(** A port beyond the range of [int] is a number: [Atoi] fails with a
    range error and the nearest bound, which is dropped just the same. *)
Example Atoi_out_of_range :
  strconv.Atoi "99999999999999999999"
  = (9223372036854775807%Z, Some (strconv.rangeError "99999999999999999999")).
Proof. reflexivity. Qed.

(** Nineteen bytes and more go through [ParseInt]. *)
Example Atoi_largest_int :
  strconv.Atoi "9223372036854775807" = (9223372036854775807%Z, None)
  /\ strconv.Atoi "9223372036854775808"
     = (9223372036854775807%Z, Some (strconv.rangeError "9223372036854775808"))
  /\ strconv.Atoi "-9223372036854775808" = ((-9223372036854775808)%Z, None)
  /\ strconv.Atoi "1844674407370955161x"
     = (0%Z, Some (strconv.syntaxError "1844674407370955161x")).
Proof. repeat split. Qed.

(** * Further properties *)

(** ** Validation, field by field *)

Lemma In_append_if (c : bool) (l : list string) (msg m : string) :
  In m (append_if c l msg) <-> In m l \/ (c = true /\ m = msg).
Proof.
  unfold append_if. destruct c.
  - rewrite in_app_iff. cbn [In]. intuition congruence.
  - intuition congruence.
Qed.

Lemma prefix_app_l (x a b : string) :
  String.prefix x a = true -> String.prefix x (a ++ b) = true.
Proof.
  revert a. induction x as [|c x IH]; intros a;
    [intros _; destruct (a ++ b); reflexivity|].
  destruct a as [|c' a]; cbn [String.prefix append]; [discriminate|].
  destruct (ascii_dec c c'); [apply IH | discriminate].
Qed.

Lemma Contains_app_l (a b x : string) :
  GoString.Contains a x = true -> GoString.Contains (a ++ b) x = true.
Proof.
  induction a as [|c a IH]; cbn [GoString.Contains append].
  - rewrite orb_false_r. intros H. apply Contains_prefix.
    destruct x; [destruct b; reflexivity | discriminate H].
  - intros H. apply orb_true_iff in H. destruct H as [H|H].
    + change (String c (a ++ b)) with (String c a ++ b).
      rewrite (prefix_app_l _ _ b H). reflexivity.
    + rewrite (IH H). apply orb_true_r.
Qed.

(** Every element of a joined list occurs in the result. *)
Lemma Join_Contains (sep : string) (l : list string) (m : string) :
  In m l -> GoString.Contains (GoString.Join l sep) m = true.
Proof.
  unfold GoString.Join.
  induction l as [|x l IH]; [intros []|]. intros [->|Hin].
  - destruct l as [|y l]; cbn [String.concat];
      [apply Contains_refl | apply Contains_here].
  - destruct l as [|y l]; [destruct Hin|].
    cbn [String.concat]. do 2 apply Contains_skip. apply IH, Hin.
Qed.

Lemma DeepEqual_Email_zero_iff (e : Email) :
  reflect.DeepEqual_Email Email_zero e = true <-> e = Email_zero.
Proof.
  destruct e as [smtp user pass port from to subj].
  destruct smtp, user, pass, port, from, subj, to as [l|];
    cbn; split; intros H; try discriminate H; reflexivity.
Qed.

Lemma DeepEqual_Pushover_zero_iff (p : Pushover) :
  reflect.DeepEqual_Pushover Pushover_zero p = true <-> p = Pushover_zero.
Proof.
  destruct p as [token key api].
  destruct token, key, api;
    cbn; split; intros H; try discriminate H; reflexivity.
Qed.

(** X1.  [Email.Valid] returns nil for two kinds of configuration only: the
    zero value, and one in which all seven settings are present. *)
Theorem Email_Valid_nil_iff (EV : ErrorValues) (e : Email) :
  Email_Valid e = None <-> e = Email_zero \/ Email_complete e.
Proof.
  unfold Email_complete.
  destruct e as [smtp user pass port from to subj].
  destruct smtp, user, pass, port, from, subj, to as [[|r l]|];
    cbn; (split;
     [ intros H; try discriminate H;
       first [ left; reflexivity
             | right; repeat split; try discriminate; lia ]
     | intros [H|(H1 & H2 & H3 & H4 & H5 & H6 & H7)];
       try reflexivity; try discriminate H; try congruence; lia ]).
Qed.

Lemma Email_Valid_nil_iff_witness :
  @Email_Valid Sample.messages Sample.email = None.
Proof.
  apply (proj2 (@Email_Valid_nil_iff Sample.messages Sample.email)).
  right. unfold Email_complete. cbn. repeat split; try discriminate; lia.
Defined.

(** X2.  When [Email.Valid] fails, its error reads
    "email settings validation fail: " followed by the collected
    messages joined by ", ", and the message of every setting that is
    missing occurs in it: validation does not stop at the first. *)
Theorem Email_Valid_reports_every_missing_field
  (EV : ErrorValues) (e : Email) (err : error) :
  Email_Valid e = Some err ->
  Error err
  = "email settings validation fail: " ++ GoString.Join (Email_errString e) ", "
  /\ (SMTP e = "" -> GoString.Contains (Error err) (Error ErrEmailNoSMTP) = true)
  /\ (len (To e) < 1 -> GoString.Contains (Error err) (Error ErrEmailNoTo) = true)
  /\ (From e = "" -> GoString.Contains (Error err) (Error ErrEmailNoFrom) = true)
  /\ (Username e = "" -> GoString.Contains (Error err) (Error ErrEmailNoUser) = true)
  /\ (Password e = "" -> GoString.Contains (Error err) (Error ErrEmailNoPass) = true)
  /\ (Port e = "" -> GoString.Contains (Error err) (Error ErrEmailNoPort) = true)
  /\ (Subject e = "" ->
      GoString.Contains (Error err) (Error ErrEmailNoSubject) = true).
Proof.
  unfold Email_Valid, validation_error.
  destruct (reflect.DeepEqual_Email Email_zero e); [discriminate|].
  destruct (List.length (Email_errString e) =? 0)%nat; [discriminate|].
  intros [= <-]. cbn [Error]. split; [reflexivity|].
  assert (Hin : forall m, In m (Email_errString e) ->
                  GoString.Contains
                    ("email settings validation fail" ++ ": "
                     ++ GoString.Join (Email_errString e) ", ") m = true).
  { intros m Hm.
    apply (Contains_skip "email settings validation fail: "), Join_Contains, Hm. }
  repeat split; intros H; apply Hin; unfold Email_errString;
    rewrite !In_append_if; rewrite ?H;
    try (apply Nat.ltb_lt in H; rewrite H); cbn [String.eqb]; intuition auto.
Qed.

Lemma Email_Valid_reports_every_missing_field_witness :
  let e := {| SMTP := "smtp.example.com"; Username := ""; Password := "";
              Port := ""; From := ""; To := Some []; Subject := "" |} in
  exists err,
    @Email_Valid Sample.messages e = Some err
    /\ GoString.Contains (Error err) "no email recipients" = true
    /\ GoString.Contains (Error err) "no email subject" = true.
Proof.
  intros e.
  exists (errors_Wrap
            (errors_New
               (GoString.Join (@Email_errString Sample.messages e) ", "))
            "email settings validation fail").
  split; [reflexivity|].
  destruct (@Email_Valid_reports_every_missing_field Sample.messages e _ eq_refl)
    as (_ & _ & Hto & _ & _ & _ & _ & Hsubj).
  split; [apply Hto; cbn; lia | apply Hsubj; reflexivity].
Defined.

(** X3.  [Pushover.Valid] returns nil exactly for the zero value and for a
    configuration with token, user key and URL all present. *)
Theorem Pushover_Valid_nil_iff (EV : ErrorValues) (p : Pushover) :
  Pushover_Valid p = None <-> p = Pushover_zero \/ Pushover_complete p.
Proof.
  unfold Pushover_complete.
  destruct p as [token key api].
  destruct token, key, api;
    cbn; (split;
     [ intros H; try discriminate H;
       first [ left; reflexivity | right; repeat split; discriminate ]
     | intros [H|(H1 & H2 & H3)];
       try reflexivity; try discriminate H; congruence ]).
Qed.

Lemma Pushover_Valid_nil_iff_witness :
  @Pushover_Valid Sample.messages Sample.pushover = None.
Proof.
  apply (proj2 (@Pushover_Valid_nil_iff Sample.messages Sample.pushover)).
  right. unfold Pushover_complete. cbn. repeat split; discriminate.
Defined.

(** X4.  When [Pushover.Valid] fails, its error reads
    "pushover settings validation fail: " followed by the collected
    messages joined by ", ", and the message of every missing setting
    occurs in it. *)
Theorem Pushover_Valid_reports_every_missing_field
  (EV : ErrorValues) (p : Pushover) (err : error) :
  Pushover_Valid p = Some err ->
  Error err
  = "pushover settings validation fail: "
    ++ GoString.Join (Pushover_errString p) ", "
  /\ (APIToken p = "" ->
      GoString.Contains (Error err) (Error ErrPushoverAPIToken) = true)
  /\ (UserKey p = "" ->
      GoString.Contains (Error err) (Error ErrPushoverUserKey) = true)
  /\ (APIURL p = "" ->
      GoString.Contains (Error err) (Error ErrPushoverAPIURL) = true).
Proof.
  unfold Pushover_Valid, validation_error.
  destruct (reflect.DeepEqual_Pushover Pushover_zero p); [discriminate|].
  destruct (List.length (Pushover_errString p) =? 0)%nat; [discriminate|].
  intros [= <-]. cbn [Error]. split; [reflexivity|].
  assert (Hin : forall m, In m (Pushover_errString p) ->
                  GoString.Contains
                    ("pushover settings validation fail" ++ ": "
                     ++ GoString.Join (Pushover_errString p) ", ") m = true).
  { intros m Hm.
    apply (Contains_skip "pushover settings validation fail: "), Join_Contains, Hm. }
  repeat split; intros H; apply Hin; unfold Pushover_errString;
    rewrite !In_append_if; rewrite H; cbn [String.eqb]; intuition auto.
Qed.

Lemma Pushover_Valid_reports_every_missing_field_witness :
  let p := {| APIToken := "T"; UserKey := ""; APIURL := "" |} in
  exists err,
    @Pushover_Valid Sample.messages p = Some err
    /\ Error err
       = "pushover settings validation fail: no pushover user key, no pushover api url".
Proof.
  intros p.
  exists (errors_Wrap
            (errors_New
               (GoString.Join (@Pushover_errString Sample.messages p) ", "))
            "pushover settings validation fail").
  split; [reflexivity|].
  apply (@Pushover_Valid_reports_every_missing_field Sample.messages p _ eq_refl).
Defined.

(** ** All the addendums *)

Lemma spaced_Contains (l : list string) (s : string) :
  In s l -> GoString.Contains (spaced l) s = true.
Proof.
  induction l as [|x l IH]; [intros []|]. cbn [spaced]. intros [->|Hin].
  - apply Contains_here.
  - do 2 apply Contains_skip. apply IH, Hin.
Qed.

(** X5.  The subject for any number of addendums: the loop never stops, so
    the addendums after the third follow the three dots, and every
    addendum occurs in the subject. *)
Theorem Email_subject_closed_form (e : Email) (addendums : list string) :
  Email_subject e addendums = subject_closed_form (Subject e) addendums
  /\ forall s, In s addendums ->
       GoString.Contains (Email_subject e addendums) s = true.
Proof.
  assert (Heq : Email_subject e addendums
                = subject_closed_form (Subject e) addendums).
  { unfold subject_closed_form.
    destruct addendums as [|a [|b [|c rest]]];
      try (unfold Email_subject; rewrite subject_loop_short by (cbn; lia);
           cbn [firstn skipn List.length Nat.leb spaced];
           now rewrite ?append_assoc, ?append_nil_r).
    rewrite Email_subject_beyond_three.
    cbn [firstn skipn List.length Nat.leb]. now rewrite ?append_assoc. }
  split; [exact Heq|].
  intros s Hin. rewrite Heq. unfold subject_closed_form.
  rewrite <- (firstn_skipn 3 addendums) in Hin. apply in_app_iff in Hin.
  do 2 apply Contains_skip. destruct Hin as [Hin|Hin].
  - apply Contains_app_l, spaced_Contains, Hin.
  - do 2 apply Contains_skip. apply spaced_Contains, Hin.
Qed.

Lemma Email_subject_closed_form_witness :
  Email_subject Sample.email ["a"; "b"; "c"; "d"; "e"] = "ALERT: a b c ...d e "
  /\ GoString.Contains (Email_subject Sample.email ["a"; "b"; "c"; "d"; "e"]) "e"
     = true.
Proof.
  destruct (Email_subject_closed_form Sample.email ["a"; "b"; "c"; "d"; "e"])
    as [Heq Hin].
  split; [exact Heq | apply Hin; cbn; tauto].
Defined.

(** ** What one call does to the world *)

Section Worlds.

Context {AM : AlertMethods} {T : Transport}.

Lemma Email_Alert_run (e : Email) (w : World) :
  Email_Alert e w =
  (match send_outcome (Email_dialer e) (Email_composed e w) with
   | Some err => Some (errors_Wrap err "error sending email")
   | None => None
   end,
   {| the_alert := snd (DumpEmail (the_alert w));
      posted := posted w;
      mailed := mailed w ++ [(Email_dialer e, Email_composed e w)];
      closed := closed w;
      logged := match send_outcome (Email_dialer e) (Email_composed e w) with
                | Some _ => logged w
                | None => logged w ++ ["alert email sent"]
                end |}).
Proof.
  run_backend. destruct (DumpEmail (the_alert w)) as [html a'].
  cbn [fst snd the_alert]. now destruct (send_outcome _ _).
Qed.

Lemma Slack_Alert_run (s : Slack) (w : World) :
  Slack_Alert s w =
  (match post_outcome (Slack_request s w) with
   | inl _ => None
   | inr err => Some err
   end,
   {| the_alert := snd (Dump (the_alert w));
      posted := posted w ++ [Slack_request s w];
      mailed := mailed w;
      closed := match post_outcome (Slack_request s w) with
                | inl resp => closed w ++ [resp]
                | inr _ => closed w
                end;
      logged := match post_outcome (Slack_request s w) with
                | inl _ => logged w ++ ["sent alert to slack"]
                | inr _ => logged w
                end |}).
Proof.
  run_backend. destruct (Dump (the_alert w)) as [alerts a'].
  cbn [fst snd the_alert]. now destruct (post_outcome _).
Qed.

Lemma Pushover_Alert_run (p : Pushover) (w : World) :
  Pushover_Alert p w =
  (match post_outcome (Pushover_request p w) with
   | inl _ => None
   | inr err => Some err
   end,
   {| the_alert := snd (Dump (the_alert w));
      posted := posted w ++ [Pushover_request p w];
      mailed := mailed w;
      closed := match post_outcome (Pushover_request p w) with
                | inl resp => closed w ++ [resp]
                | inr _ => closed w
                end;
      logged := match post_outcome (Pushover_request p w) with
                | inl _ => logged w ++ ["sent alert to pushover"]
                | inr _ => logged w
                end |}).
Proof.
  run_backend. destruct (Dump (the_alert w)) as [alerts a'].
  cbn [fst snd the_alert]. now destruct (post_outcome _).
Qed.

End Worlds.

(** X6.  The mail [Email.Alert] hands to the dialer: sent once per call to
    the configured host with the configured credentials, on the port
    [strconv.Atoi] yields (the number itself for a port written in
    decimal digits below [2^63]), with SSL exactly on port 465, one From and one To header, the To header holding every
    configured recipient, and the HTML rendering as its body.  The call
    posts nothing over HTTP. *)
Theorem Email_Alert_mail
  (AM : AlertMethods) (T : Transport) (e : Email) (w : World) :
  exists d m,
    mailed (after (Email_Alert e) w) = (mailed w ++ [(d, m)])%list
    /\ posted (after (Email_Alert e) w) = posted w
    /\ closed (after (Email_Alert e) w) = closed w
    /\ gomail.Host d = SMTP e
    /\ gomail.Username d = Username e
    /\ gomail.Password d = Password e
    /\ gomail.Port d = fst (strconv.Atoi (Port e))
    /\ (strconv.all_digits (Port e) = true -> Port e <> "" ->
        (strconv.decimal_value (Port e) < 2 ^ 63)%Z ->
        gomail.Port d = strconv.decimal_value (Port e))
    /\ gomail.SSL d = (gomail.Port d =? 465)%Z
    /\ gomail.GetHeader m "From" = [From e]
    /\ gomail.GetHeader m "To" = [GoString.Join (elems (To e)) ","]
    /\ (forall r, In r (elems (To e)) ->
        exists to, gomail.GetHeader m "To" = [to]
                   /\ GoString.Contains to r = true)
    /\ gomail.bodyContentType m = "text/html"
    /\ gomail.body m = fst (DumpEmail (the_alert w)).
Proof.
  exists (Email_dialer e), (Email_composed e w).
  unfold after. rewrite Email_Alert_run. cbn [snd mailed posted closed].
  assert (Hnum : strconv.all_digits (Port e) = true -> Port e <> "" ->
                 (strconv.decimal_value (Port e) < 2 ^ 63)%Z ->
                 gomail.Port (Email_dialer e) = strconv.decimal_value (Port e)).
  { intros Hall Hne Hval. rewrite Email_dialer_Port.
    now rewrite (@Atoi_decimal _ Hall Hne Hval). }
  revert Hnum.
  unfold Email_dialer. destruct (strconv.Atoi (Port e)) as [port nerr].
  intros Hnum. repeat split; [exact Hnum|].
  intros r Hr. exists (GoString.Join (elems (To e)) ","). split; [reflexivity|].
  apply Join_Contains, Hr.
Qed.

Lemma Email_Alert_mail_witness :
  exists d m,
    mailed (after (@Email_Alert Sample.plain (Sample.up 200) Sample.email)
              (Sample.world (Sample.alert "down" [])))
    = [(d, m)]
    /\ gomail.Port d = 587%Z
    /\ gomail.GetHeader m "To" = ["ops@example.com,dev@example.com"]
    /\ exists to, gomail.GetHeader m "To" = [to]
                  /\ GoString.Contains to "dev@example.com" = true.
Proof.
  destruct (@Email_Alert_mail Sample.plain (Sample.up 200) Sample.email
              (Sample.world (Sample.alert "down" [])))
    as (d & m & Hm & _ & _ & _ & _ & _ & _ & Hport & _ & _ & Hto & Hall & _).
  exists d, m. split; [exact Hm|].
  split; [apply Hport; [reflexivity | discriminate | reflexivity]|].
  split; [exact Hto|].
  apply Hall. cbn. tauto.
Defined.

(** X7.  What a webhook call leaves behind.  Slack and Pushover post exactly
    one request per call and send no mail; when the post yields a
    response they log their one success line and close that response
    body once; when it fails they log nothing and close nothing. *)
Theorem webhook_Alert_effects
  (AM : AlertMethods) (T : Transport) (s : Slack) (p : Pushover) (w : World) :
  (posted (after (Slack_Alert s) w) = (posted w ++ [Slack_request s w])%list
   /\ mailed (after (Slack_Alert s) w) = mailed w
   /\ posted (after (Pushover_Alert p) w)
      = (posted w ++ [Pushover_request p w])%list
   /\ mailed (after (Pushover_Alert p) w) = mailed w)
  /\ (forall resp, post_outcome (Slack_request s w) = inl resp ->
      logged (after (Slack_Alert s) w)
      = (logged w ++ ["sent alert to slack"])%list
      /\ closed (after (Slack_Alert s) w) = (closed w ++ [resp])%list)
  /\ (forall err, post_outcome (Slack_request s w) = inr err ->
      logged (after (Slack_Alert s) w) = logged w
      /\ closed (after (Slack_Alert s) w) = closed w)
  /\ (forall resp, post_outcome (Pushover_request p w) = inl resp ->
      logged (after (Pushover_Alert p) w)
      = (logged w ++ ["sent alert to pushover"])%list
      /\ closed (after (Pushover_Alert p) w) = (closed w ++ [resp])%list)
  /\ (forall err, post_outcome (Pushover_request p w) = inr err ->
      logged (after (Pushover_Alert p) w) = logged w
      /\ closed (after (Pushover_Alert p) w) = closed w).
Proof.
  unfold after. rewrite Slack_Alert_run, Pushover_Alert_run.
  cbn [snd posted mailed closed logged].
  repeat split;
    try match goal with H : post_outcome _ = _ |- _ => rewrite H end;
    reflexivity.
Qed.

Lemma webhook_Alert_effects_witness :
  let w := Sample.world (Sample.alert "down" []) in
  (logged (after (@Slack_Alert Sample.plain (Sample.up 503) Sample.slack) w)
   = ["sent alert to slack"]
   /\ closed (after (@Slack_Alert Sample.plain (Sample.up 503) Sample.slack) w)
      = [{| http.StatusCode := 503 |}])
  /\ (logged (after (@Pushover_Alert Sample.plain Sample.down Sample.pushover) w)
      = []
      /\ closed (after (@Pushover_Alert Sample.plain Sample.down Sample.pushover) w)
         = []).
Proof.
  intros w.
  destruct (@webhook_Alert_effects Sample.plain (Sample.up 503)
              Sample.slack Sample.pushover w) as (_ & Hok & _).
  destruct (@webhook_Alert_effects Sample.plain Sample.down
              Sample.slack Sample.pushover w) as (_ & _ & _ & _ & Hfail).
  split.
  - apply (Hok {| http.StatusCode := 503 |}). reflexivity.
  - apply (Hfail (transport_error "connection refused")). reflexivity.
Defined.

(** X8.  Nothing is remembered between calls: as long as the renderings only
    read the alert, calling [Alert] a second time hands the same mail to
    the same dialer, or posts the same request, once more. *)
Theorem Alert_twice
  (AM : AlertMethods) (T : Transport)
  (e : Email) (s : Slack) (p : Pushover) (w : World) :
  read_only AM ->
  mailed (after (Email_Alert e) (after (Email_Alert e) w))
  = (mailed w
     ++ [(Email_dialer e, Email_composed e w);
         (Email_dialer e, Email_composed e w)])%list
  /\ posted (after (Slack_Alert s) (after (Slack_Alert s) w))
     = (posted w ++ [Slack_request s w; Slack_request s w])%list
  /\ posted (after (Pushover_Alert p) (after (Pushover_Alert p) w))
     = (posted w ++ [Pushover_request p w; Pushover_request p w])%list.
Proof.
  intros [Hdump Hhtml]. unfold after.
  rewrite !Email_Alert_run, !Slack_Alert_run, !Pushover_Alert_run.
  cbn [fst snd posted mailed the_alert].
  unfold Email_composed, Slack_request, Pushover_request.
  cbn [the_alert]. rewrite !Hdump, !Hhtml, <- !app_assoc.
  repeat split.
Qed.

Lemma Alert_twice_witness :
  let w := Sample.world (Sample.alert "down" []) in
  List.length
    (posted (after (@Slack_Alert Sample.plain (Sample.up 200) Sample.slack)
               (after (@Slack_Alert Sample.plain (Sample.up 200) Sample.slack) w)))
  = 2.
Proof.
  intros w.
  destruct (@Alert_twice Sample.plain (Sample.up 200) Sample.email Sample.slack
              Sample.pushover w) as (_ & Hs & _).
  - split; intros; reflexivity.
  - rewrite Hs. reflexivity.
Defined.

(** ** The message field of the push body *)

Ltac each_byte c := destruct c as [[] [] [] [] [] [] [] []].

Lemma hex_digits_back (c : ascii) :
  url.unhex (url.hex (GoString.code c / 16)) = Some (GoString.code c / 16)
  /\ url.unhex (url.hex (GoString.code c mod 16)) = Some (GoString.code c mod 16)
  /\ ascii_of_nat (GoString.code c / 16 * 16 + GoString.code c mod 16) = c.
Proof. each_byte c; vm_compute; repeat split. Qed.

Lemma hex_digits_query_byte (c : ascii) :
  url.query_byte (url.hex (GoString.code c / 16)) = true
  /\ url.query_byte (url.hex (GoString.code c mod 16)) = true.
Proof. each_byte c; vm_compute; split; reflexivity. Qed.

Lemma unreserved_literal (c : ascii) :
  url.shouldEscape c = false ->
  Ascii.eqb c "%" = false /\ Ascii.eqb c "+" = false.
Proof. each_byte c; vm_compute; intros H; try discriminate H; split; reflexivity. Qed.

Lemma append_inv_head (p s t : string) : p ++ s = p ++ t -> s = t.
Proof.
  induction p as [|c p IH]; cbn [append]; [trivial|].
  intros [= H]. apply IH, H.
Qed.

(** Decoding undoes encoding. *)
Lemma QueryUnescape_QueryEscape (s : string) :
  url.QueryUnescape (url.QueryEscape s) = Some s.
Proof.
  unfold url.QueryUnescape, url.QueryEscape.
  induction s as [|c s IH]; [reflexivity|]. cbn [url.escape].
  destruct (url.shouldEscape c) eqn:Hesc.
  - destruct (Ascii.eqb_spec c " ") as [->|Hsp].
    + cbn [url.unescape]. rewrite IH. reflexivity.
    + cbn [url.unescape].
      change (Ascii.eqb "%" "%") with true. cbv iota.
      destruct (hex_digits_back c) as (Hh & Hl & Hc).
      now rewrite Hh, Hl, IH, Hc.
  - destruct (unreserved_literal c Hesc) as [Hpct Hplus].
    cbn [url.unescape]. now rewrite Hpct, IH, Hplus.
Qed.

(** X9.  What [url.QueryEscape] puts in the message field is made of
    unreserved bytes, plus signs and percent escapes only, so the
    rendering can neither end the field nor start another one; and the
    field decodes back to the rendering, so two renderings that differ
    give two bodies that differ. *)
Theorem Pushover_message_field (p : Pushover) (alerts : string) :
  Pushover_parsedBody p alerts
  = "token=" ++ APIToken p ++ "&user=" ++ UserKey p ++ "&message="
    ++ url.QueryEscape alerts
  /\ all_bytes url.query_byte (url.QueryEscape alerts) = true
  /\ (forall c, In c (list_ascii_of_string (url.QueryEscape alerts)) ->
      c <> "&"%char /\ c <> "="%char /\ c <> " "%char)
  /\ url.QueryUnescape (url.QueryEscape alerts) = Some alerts
  /\ (forall alerts',
        Pushover_parsedBody p alerts = Pushover_parsedBody p alerts' ->
        alerts = alerts').
Proof.
  assert (Hall : all_bytes url.query_byte (url.QueryEscape alerts) = true).
  { unfold all_bytes, url.QueryEscape.
    induction alerts as [|c s IH]; [reflexivity|]. cbn [url.escape].
    destruct (url.shouldEscape c) eqn:Hesc.
    - destruct (Ascii.eqb c " ").
      + cbn [list_ascii_of_string forallb]. rewrite IH. reflexivity.
      + destruct (hex_digits_query_byte c) as [Hh Hl].
        cbn [list_ascii_of_string forallb]. rewrite Hh, Hl, IH. reflexivity.
    - cbn [list_ascii_of_string forallb]. rewrite IH.
      unfold url.query_byte. now rewrite Hesc. }
  split; [reflexivity|]. split; [exact Hall|]. split; [|split].
  - intros c Hc. unfold all_bytes in Hall.
    rewrite forallb_forall in Hall. specialize (Hall c Hc).
    repeat split; intros ->; discriminate Hall.
  - apply QueryUnescape_QueryEscape.
  - intros alerts' H. unfold Pushover_parsedBody in H.
    do 5 apply append_inv_head in H.
    apply (f_equal url.QueryUnescape) in H.
    rewrite !QueryUnescape_QueryEscape in H. now injection H.
Qed.

Lemma Pushover_message_field_witness :
  url.QueryEscape "a&b=1 c" = "a%26b%3D1+c"
  /\ (In "+"%char (list_ascii_of_string (url.QueryEscape "a&b=1 c")) ->
      "+"%char <> "&"%char)
  /\ "x" = "x".
Proof.
  destruct (Pushover_message_field Sample.pushover "a&b=1 c")
    as (_ & _ & Hbytes & _ & _).
  destruct (Pushover_message_field Sample.pushover "x")
    as (_ & _ & _ & _ & Hinj).
  split; [reflexivity|]. split.
  - intros Hin. apply (Hbytes _ Hin).
  - apply Hinj. reflexivity.
Defined.

Lemma escape_unreserved (s : string) :
  all_bytes (fun c => negb (url.shouldEscape c)) s = true ->
  url.QueryEscape s = s.
Proof.
  unfold all_bytes, url.QueryEscape.
  induction s as [|c s IH]; [reflexivity|].
  cbn [list_ascii_of_string forallb url.escape].
  intros H. apply andb_true_iff in H. destruct H as [Hc Hs].
  apply negb_true_iff in Hc. now rewrite Hc, IH.
Qed.

(** X10.  A token and a user key made of letters, digits and the marks
    [- _ . ~] are left as they are by form-urlencoding, so for them the
    body that is sent is the all-encoded one. *)
Theorem Pushover_body_unreserved_credentials (p : Pushover) (alerts : string) :
  all_bytes (fun c => negb (url.shouldEscape c)) (APIToken p) = true ->
  all_bytes (fun c => negb (url.shouldEscape c)) (UserKey p) = true ->
  Pushover_parsedBody p alerts = Pushover_body_as_specified p alerts.
Proof.
  intros Ht Hu. unfold Pushover_parsedBody, Pushover_body_as_specified.
  now rewrite (escape_unreserved _ Ht), (escape_unreserved _ Hu).
Qed.

Lemma Pushover_body_unreserved_credentials_witness :
  let p := {| APIToken := "azGDORePK8gMaC0QOYAMyEEuzJnyUi";
              UserKey := "uQiRzpo4DXghDmr9QzzfQu27cmVRsG";
              APIURL := "https://api.example.com/1" |} in
  Pushover_parsedBody p "disk full" = Pushover_body_as_specified p "disk full".
Proof.
  intros p.
  apply (@Pushover_body_unreserved_credentials p "disk full"); reflexivity.
Defined.

(** ** The text field of the webhook body *)

Lemma substring_prefix (s t : string) :
  substring 0 (String.length s) (s ++ t) = s.
Proof.
  induction s as [|c s IH]; cbn [String.length append substring].
  - now destruct t.
  - now rewrite IH.
Qed.

Lemma length_append (s t : string) :
  String.length (s ++ t) = String.length s + String.length t.
Proof. induction s as [|c s IH]; cbn [String.length append]; [|rewrite IH]; reflexivity. Qed.

(** X11.  The rendering sits in the webhook body byte for byte: the body is
    12 bytes longer than the rendering, which starts at offset 10, so
    two renderings that differ give two bodies that differ. *)
Theorem Slack_json_holds_dump (alerts : string) :
  String.length (Slack_json alerts) = String.length alerts + 12
  /\ substring 10 (String.length alerts) (Slack_json alerts) = alerts
  /\ forall alerts', Slack_json alerts = Slack_json alerts' -> alerts = alerts'.
Proof.
  assert (Hsub : forall a,
             substring 10 (String.length a) (Slack_json a) = a).
  { intros a. unfold Slack_json, GoString.dquote. cbn [append substring].
    apply substring_prefix. }
  split; [|split].
  - unfold Slack_json, GoString.dquote. cbn [append String.length].
    rewrite length_append. cbn [String.length]. lia.
  - apply Hsub.
  - intros alerts' H. unfold Slack_json in H.
    do 6 apply append_inv_head in H.
    apply (f_equal String.length) in H as Hlen.
    rewrite !length_append in Hlen.
    assert (Hl : String.length alerts = String.length alerts') by lia.
    rewrite <- (substring_prefix alerts (GoString.dquote ++ "}")).
    rewrite H, Hl. apply substring_prefix.
Qed.

Lemma Slack_json_holds_dump_witness :
  String.length (Slack_json "status: down") = 24 /\ "up" = "up".
Proof.
  destruct (Slack_json_holds_dump "status: down") as (Hlen & _ & _).
  destruct (Slack_json_holds_dump "up") as (_ & _ & Hinj).
  split; [exact Hlen | apply Hinj; reflexivity].
Defined.
